(** * ResizeRotated: resizing a rotated rectangle by one of its handles

    A shallow embedding of [main.py] and the properties of its four
    operations [rotate], [adjust_points], [get_adjusted_point] and
    [to_rect].

    Numbers.  The program computes on Python [float]s, that is on IEEE 754
    binary64 numbers, and it is embedded twice.

    - In exact arithmetic: the fields and the results of [math.sin],
      [math.cos] and [math.radians] are real numbers of the Standard
      Library.  This is the program as its formulas read; rounding, NaN and
      infinities are outside this model, and every property proved on it
      says so.

    - In double precision (module [Double]): the fields are the binary64
      numbers of [PrimFloat], with the rounding of every operation.  There
      the cosine and sine of the platform are left open, and a property
      that depends on them states the values it uses.

    Control.  A Python call either returns a value, falls off the end of the
    function body (and so returns [None]), or raises.  The three outcomes are
    kept apart in the type [result]. *)

From Stdlib Require Import PrimFloat.
From Stdlib Require Import Reals Lra Lia List ZArith String Bool.
Import ListNotations.

Local Open Scope R_scope.

(** * Part I: the program *)

(** ** Python values that reach a [match] subject or an index *)

(** [class Handle(IntEnum)], main.py lines 6-16. *)
Inductive Handle : Set :=
| TOP_RIGHT
| MIDDLE_RIGHT
| BOTTOM_RIGHT
| TOP_LEFT
| MIDDLE_LEFT
| BOTTOM_LEFT
| TOP_MIDDLE
| BOTTOM_MIDDLE.

(** The integer each member of the enumeration carries. *)
Definition Handle_value (h : Handle) : Z :=
  match h with
  | TOP_RIGHT => 0
  | MIDDLE_RIGHT => 1
  | BOTTOM_RIGHT => 2
  | TOP_LEFT => 3
  | MIDDLE_LEFT => 4
  | BOTTOM_LEFT => 5
  | TOP_MIDDLE => 6
  | BOTTOM_MIDDLE => 7
  end%Z.

(** The annotations [handle: Handle] and [index: int] are not enforced by
    Python, so an argument is an arbitrary object.  The objects kept here are
    the members of the enumeration, the plain integers, the strings and
    [None]; of each, the code observes whether it is an [int] (a member of an
    [IntEnum] is one) and which integer it equals. *)
Inductive pyobj : Type :=
| ObjHandle (h : Handle)
| ObjInt (n : Z)
| ObjStr (s : string)
| ObjNone.

(** [isinstance(v, int)]. *)
Definition isinstance_int (v : pyobj) : bool :=
  match v with
  | ObjHandle _ | ObjInt _ => true
  | ObjStr _ | ObjNone => false
  end.

(** [v == n] for an integer [n]; a member of an [IntEnum] compares as the
    integer it carries. *)
Definition py_eq_int (v : pyobj) (n : Z) : bool :=
  match v with
  | ObjHandle h => (Handle_value h =? n)%Z
  | ObjInt m => (m =? n)%Z
  | ObjStr _ | ObjNone => false
  end.

(** The value pattern [case Handle.X:] succeeds when [subject == Handle.X]. *)
Definition case_Handle (subject : pyobj) (h : Handle) : bool :=
  py_eq_int subject (Handle_value h).

(** ** Outcomes of a call *)

Inductive exn : Set :=
| TypeError
| IndexError
| ValueError.

Inductive result (A : Type) : Type :=
| Return (v : A)
| ReturnNone
| Raise (e : exn).

Arguments Return {A} v.
Arguments ReturnNone {A}.
Arguments Raise {A} e.

(** ** The value types *)

Module Point.

(** [@dataclass(frozen=True) class Point], main.py lines 19-49. *)
Record t : Type := mk { x : R; y : R }.

Definition pos (self : t) : R * R := (x self, y self).

(** Lines 28-41. *)
Definition __getitem__ (self : t) (index : pyobj) : result R :=
  if negb (isinstance_int index) then Raise TypeError
  else if py_eq_int index 0 then Return (x self)
  else if py_eq_int index 1 then Return (y self)
  else Raise IndexError.

(** Lines 43-49: the values yielded, in order. *)
Definition __iter__ (self : t) : list R := [x self; y self].

End Point.

Module Rectangle.

(** [@dataclass(frozen=True) class Rectangle], main.py lines 52-77. *)
Record t : Type := mk { x : R; y : R; width : R; height : R }.

(** The constructor the dataclass generates, called on a sequence of
    positional arguments as in [Rectangle( *a, w, h)]: it takes four. *)
Definition __init__ (args : list R) : result t :=
  match args with
  | [x0; y0; w; h] => Return (mk x0 y0 w h)
  | _ => Raise TypeError
  end.

Definition pcenter (self : t) : Point.t :=
  Point.mk (x self + width self / 2) (y self + height self / 2).

Definition center (self : t) : R * R :=
  (x self + width self / 2, y self + height self / 2).

Definition size (self : t) : R * R := (width self, height self).

Definition ppos (self : t) : Point.t := Point.mk (x self) (y self).

Definition pos (self : t) : R * R := (x self, y self).

End Rectangle.

(** ** The operations *)

(** [math.radians]. *)
Definition radians (angle : R) : R := angle * (PI / 180).

(** [rotate], main.py lines 80-92. *)
Definition rotate (point origin : Point.t) (angle : R) : Point.t :=
  let angle := radians angle in
  Point.mk
    ((Point.x point - Point.x origin) * cos angle
     - (Point.y point - Point.y origin) * sin angle + Point.x origin)
    ((Point.x point - Point.x origin) * sin angle
     + (Point.y point - Point.y origin) * cos angle + Point.y origin).

(** [adjust_points], lines 95-110. *)
Definition adjust_points (corner_a corner_c center : Point.t) (angle : R)
  : Point.t * Point.t :=
  let rotated_a := rotate corner_a center angle in
  let new_center :=
    Point.mk ((Point.x rotated_a + Point.x corner_c) / 2)
             ((Point.y rotated_a + Point.y corner_c) / 2) in
  (rotate rotated_a new_center (- angle), rotate corner_c new_center (- angle)).

(** [get_adjusted_point], lines 113-150.  The [match] has no wildcard case:
    when no pattern succeeds the body ends and the call returns [None]. *)
Definition get_adjusted_point (rectangle : Rectangle.t) (target : Point.t)
  (angle : R) (handle : pyobj) : result (Point.t * Point.t) :=
  let rx := Rectangle.x rectangle in
  let ry := Rectangle.y rectangle in
  let rw := Rectangle.width rectangle in
  let rh := Rectangle.height rectangle in
  let normal_c := rotate target (Rectangle.pcenter rectangle) (- angle) in
  if case_Handle handle TOP_RIGHT then
    Return (Point.mk rx ry, target)
  else if case_Handle handle MIDDLE_RIGHT then
    let interpolated_d := Point.mk (Point.x normal_c) (ry + rh) in
    Return (Point.mk rx ry,
            rotate interpolated_d (Rectangle.pcenter rectangle) angle)
  else if case_Handle handle BOTTOM_RIGHT then
    Return (Point.mk rx (ry + rh), target)
  else if case_Handle handle TOP_LEFT then
    Return (Point.mk (rx + rw) ry, target)
  else if case_Handle handle MIDDLE_LEFT then
    let interpolated_d := Point.mk (Point.x normal_c) (ry + rh) in
    Return (Point.mk (rx + rw) ry,
            rotate interpolated_d (Rectangle.pcenter rectangle) angle)
  else if case_Handle handle BOTTOM_LEFT then
    Return (Point.mk (rx + rw) (ry + rh), target)
  else if case_Handle handle TOP_MIDDLE then
    let interpolated_d := Point.mk (rx + rw) (Point.y normal_c) in
    Return (Point.mk rx ry,
            rotate interpolated_d (Rectangle.pcenter rectangle) angle)
  else if case_Handle handle BOTTOM_MIDDLE then
    let interpolated_d := Point.mk (rx + rw) (Point.y normal_c) in
    Return (Point.mk rx (ry + rh),
            rotate interpolated_d (Rectangle.pcenter rectangle) angle)
  else ReturnNone.

(** [to_rect], lines 153-177.  Again no wildcard case. *)
Definition to_rect (a c : Point.t) (handle : pyobj) : result Rectangle.t :=
  if case_Handle handle TOP_RIGHT || case_Handle handle MIDDLE_RIGHT
     || case_Handle handle TOP_MIDDLE then
    Rectangle.__init__
      (Point.__iter__ a ++ [Point.x c - Point.x a; Point.y c - Point.y a])
  else if case_Handle handle BOTTOM_RIGHT then
    let height := Point.y a - Point.y c in
    Return (Rectangle.mk (Point.x a) (Point.y a - height)
                         (Point.x c - Point.x a) height)
  else if case_Handle handle TOP_LEFT || case_Handle handle MIDDLE_LEFT then
    let height := Point.y c - Point.y a in
    Return (Rectangle.mk (Point.x c) (Point.y c - height)
                         (Point.x a - Point.x c) height)
  else if case_Handle handle BOTTOM_LEFT then
    Return (Rectangle.mk (Point.x c) (Point.y c)
                         (Point.x a - Point.x c) (Point.y a - Point.y c))
  else if case_Handle handle BOTTOM_MIDDLE then
    Return (Rectangle.mk (Point.x a) (Point.y c)
                         (Point.x c - Point.x a) (Point.y a - Point.y c))
  else ReturnNone.

(** The two in sequence, [to_rect( *get_adjusted_point(r, t, angle, h), h)]:
    the resolver's pair goes straight to the reconstructor.  When the
    resolver returns [None] the unpacking raises [TypeError]. *)
Definition resize (rectangle : Rectangle.t) (target : Point.t) (angle : R)
  (handle : pyobj) : result Rectangle.t :=
  match get_adjusted_point rectangle target angle handle with
  | Return (a, c) => to_rect a c handle
  | ReturnNone => Raise TypeError
  | Raise e => Raise e
  end.

(** * Part I, again: the program in double precision *)

Set Warnings "-inexact-float".

Module Double.

Local Open Scope float_scope.

(** The two functions of the platform's C library that [math.cos] and
    [math.sin] call.  They are not part of the program and are left open. *)
Record math : Type := { cos : float -> float; sin : float -> float }.

(** [math.pi], and [math.radians] as CPython computes it: one multiplication
    by the constant [pi / 180]. *)
Definition pi : float := 3.141592653589793.

Definition radians (angle : float) : float := angle * (pi / 180).

Module Point.

Record t : Type := mk { x : float; y : float }.

(** The generated [__eq__]: field by field, with the [==] of floats. *)
Definition eqb (p q : t) : bool := (x p =? x q) && (y p =? y q).

Definition __iter__ (self : t) : list float := [x self; y self].

End Point.

Module Rectangle.

Record t : Type := mk { x : float; y : float; width : float; height : float }.

Definition eqb (r s : t) : bool :=
  (x r =? x s) && (y r =? y s) && (width r =? width s)
  && (height r =? height s).

Definition __init__ (args : list float) : result t :=
  match args with
  | [x0; y0; w; h] => Return (mk x0 y0 w h)
  | _ => Raise TypeError
  end.

Definition pcenter (self : t) : Point.t :=
  Point.mk (x self + width self / 2) (y self + height self / 2).

End Rectangle.

(** [rotate], main.py lines 80-92, for a finite angle: on an infinite one
    [math.cos] raises [ValueError], which this embedding leaves out. *)
Definition rotate (m : math) (point origin : Point.t) (angle : float)
  : Point.t :=
  let angle := radians angle in
  Point.mk
    ((Point.x point - Point.x origin) * cos m angle
     - (Point.y point - Point.y origin) * sin m angle + Point.x origin)
    ((Point.x point - Point.x origin) * sin m angle
     + (Point.y point - Point.y origin) * cos m angle + Point.y origin).

(** [adjust_points], lines 95-110. *)
Definition adjust_points (m : math) (corner_a corner_c center : Point.t)
  (angle : float) : Point.t * Point.t :=
  let rotated_a := rotate m corner_a center angle in
  let new_center :=
    Point.mk ((Point.x rotated_a + Point.x corner_c) / 2)
             ((Point.y rotated_a + Point.y corner_c) / 2) in
  (rotate m rotated_a new_center (- angle),
   rotate m corner_c new_center (- angle)).

(** [get_adjusted_point], lines 113-150. *)
Definition get_adjusted_point (m : math) (rectangle : Rectangle.t)
  (target : Point.t) (angle : float) (handle : pyobj)
  : result (Point.t * Point.t) :=
  let rx := Rectangle.x rectangle in
  let ry := Rectangle.y rectangle in
  let rw := Rectangle.width rectangle in
  let rh := Rectangle.height rectangle in
  let normal_c := rotate m target (Rectangle.pcenter rectangle) (- angle) in
  if case_Handle handle TOP_RIGHT then
    Return (Point.mk rx ry, target)
  else if case_Handle handle MIDDLE_RIGHT then
    let interpolated_d := Point.mk (Point.x normal_c) (ry + rh) in
    Return (Point.mk rx ry,
            rotate m interpolated_d (Rectangle.pcenter rectangle) angle)
  else if case_Handle handle BOTTOM_RIGHT then
    Return (Point.mk rx (ry + rh), target)
  else if case_Handle handle TOP_LEFT then
    Return (Point.mk (rx + rw) ry, target)
  else if case_Handle handle MIDDLE_LEFT then
    let interpolated_d := Point.mk (Point.x normal_c) (ry + rh) in
    Return (Point.mk (rx + rw) ry,
            rotate m interpolated_d (Rectangle.pcenter rectangle) angle)
  else if case_Handle handle BOTTOM_LEFT then
    Return (Point.mk (rx + rw) (ry + rh), target)
  else if case_Handle handle TOP_MIDDLE then
    let interpolated_d := Point.mk (rx + rw) (Point.y normal_c) in
    Return (Point.mk rx ry,
            rotate m interpolated_d (Rectangle.pcenter rectangle) angle)
  else if case_Handle handle BOTTOM_MIDDLE then
    let interpolated_d := Point.mk (rx + rw) (Point.y normal_c) in
    Return (Point.mk rx (ry + rh),
            rotate m interpolated_d (Rectangle.pcenter rectangle) angle)
  else ReturnNone.

(** [to_rect], lines 153-177. *)
Definition to_rect (a c : Point.t) (handle : pyobj) : result Rectangle.t :=
  if case_Handle handle TOP_RIGHT || case_Handle handle MIDDLE_RIGHT
     || case_Handle handle TOP_MIDDLE then
    Rectangle.__init__
      (Point.__iter__ a ++ [Point.x c - Point.x a; Point.y c - Point.y a])
  else if case_Handle handle BOTTOM_RIGHT then
    let height := Point.y a - Point.y c in
    Return (Rectangle.mk (Point.x a) (Point.y a - height)
                         (Point.x c - Point.x a) height)
  else if case_Handle handle TOP_LEFT || case_Handle handle MIDDLE_LEFT then
    let height := Point.y c - Point.y a in
    Return (Rectangle.mk (Point.x c) (Point.y c - height)
                         (Point.x a - Point.x c) height)
  else if case_Handle handle BOTTOM_LEFT then
    Return (Rectangle.mk (Point.x c) (Point.y c)
                         (Point.x a - Point.x c) (Point.y a - Point.y c))
  else if case_Handle handle BOTTOM_MIDDLE then
    Return (Rectangle.mk (Point.x a) (Point.y c)
                         (Point.x c - Point.x a) (Point.y a - Point.y c))
  else ReturnNone.

(** [to_rect( *get_adjusted_point(r, t, angle, h), h)]. *)
Definition resize (m : math) (rectangle : Rectangle.t) (target : Point.t)
  (angle : float) (handle : pyobj) : result Rectangle.t :=
  match get_adjusted_point m rectangle target angle handle with
  | Return (a, c) => to_rect a c handle
  | ReturnNone => Raise TypeError
  | Raise e => Raise e
  end.

(** ** What the properties say, read on doubles *)

Definition distance (p q : Point.t) : float :=
  PrimFloat.sqrt ((Point.x p - Point.x q) * (Point.x p - Point.x q)
        + (Point.y p - Point.y q) * (Point.y p - Point.y q)).

Definition midpoint (p q : Point.t) : Point.t :=
  Point.mk ((Point.x p + Point.x q) / 2) ((Point.y p + Point.y q) / 2).

(** Equality of unordered pairs, with the [==] of floats. *)
Definition same_pair (p q : float * float) : bool :=
  ((fst p =? fst q) && (snd p =? snd q))
  || ((fst p =? snd q) && (snd p =? fst q)).

(** The values IEEE 754 and the C standard fix for every implementation:
    the cosine of a zero is 1 and the sine of a zero is that zero. *)
Definition exact_at_zero (m : math) : Prop :=
  cos m 0 = 1 /\ sin m 0 = 0 /\ cos m (- 0) = 1 /\ sin m (- 0) = - 0.

(** The values of a correctly rounded cosine and sine at a half turn, that
    is at the double nearest to pi, which is a little less than pi, and at
    its opposite. *)
Definition half_turn_values (m : math) : Prop :=
  cos m pi = - 1 /\ sin m pi = 1.2246467991473532e-16
  /\ cos m (- pi) = - 1 /\ sin m (- pi) = - 1.2246467991473532e-16.

(** A cosine and a sine with those values: a table at the arguments above,
    the first terms of the series elsewhere.  It shows that the two
    requirements can be met together. *)
Definition table_math : math :=
  {| cos := fun x =>
       if x =? 0 then 1 else if PrimFloat.abs x =? pi then - 1 else 1 - x * x / 2;
     sin := fun x =>
       if x =? 0 then x
       else if x =? pi then 1.2246467991473532e-16
       else if x =? - pi then - 1.2246467991473532e-16
       else x |}.

(** An edge-midpoint handle leaves the other dimension as it was. *)
Definition keeps_untouched_dimension (m : math) (r : Rectangle.t)
  (t : Point.t) (angle : float) (h : Handle) : Prop :=
  exists r', resize m r t angle (ObjHandle h) = Return r'
    /\ match h with
       | MIDDLE_RIGHT | MIDDLE_LEFT =>
           (Rectangle.height r' =? Rectangle.height r) = true
       | TOP_MIDDLE | BOTTOM_MIDDLE =>
           (Rectangle.width r' =? Rectangle.width r) = true
       | TOP_RIGHT | BOTTOM_RIGHT | TOP_LEFT | BOTTOM_LEFT => True
       end.

(** Dragging TOP_RIGHT to where it is, at angle 0, gives the rectangle back. *)
Definition identity_drag (m : math) (r : Rectangle.t) : Prop :=
  exists r',
    resize m r
           (Point.mk (Rectangle.x r + Rectangle.width r)
                     (Rectangle.y r + Rectangle.height r))
           0 (ObjHandle TOP_RIGHT)
    = Return r'
    /\ Rectangle.eqb r' r = true.

(** A rotation keeps the distance to its origin. *)
Definition keeps_distance (m : math) (p o : Point.t) (angle : float) : Prop :=
  (distance p o =? distance (rotate m p o angle) o) = true.

(** The rectangle spans the coordinates of the two points. *)
Definition spans (h : Handle) (a c : Point.t) : Prop :=
  exists r, to_rect a c (ObjHandle h) = Return r
    /\ same_pair (Rectangle.x r, Rectangle.x r + Rectangle.width r)
                 (Point.x a, Point.x c) = true
    /\ same_pair (Rectangle.y r, Rectangle.y r + Rectangle.height r)
                 (Point.y a, Point.y c) = true.

(** The two points returned have the new centre as their midpoint. *)
Definition keeps_midpoint (m : math) (a c o : Point.t) (angle : float)
  : Prop :=
  Point.eqb (midpoint (fst (adjust_points m a c o angle))
                      (snd (adjust_points m a c o angle)))
            (midpoint (rotate m a o angle) c)
  = true.

End Double.

(** * Part II: the vocabulary of the properties *)

(** A call that ends in an exception. *)
Definition raises {A : Type} (m : result A) : Prop :=
  exists e, m = Raise e.

(** An object that is a member of the enumeration. *)
Definition is_Handle (v : pyobj) : Prop :=
  exists h, v = ObjHandle h.

(** Euclidean distance and midpoint of two points. *)
Definition distance (p q : Point.t) : R :=
  sqrt ((Point.x p - Point.x q) * (Point.x p - Point.x q)
        + (Point.y p - Point.y q) * (Point.y p - Point.y q)).

Definition midpoint (p q : Point.t) : Point.t :=
  Point.mk ((Point.x p + Point.x q) / 2) ((Point.y p + Point.y q) / 2).

(** Equality of unordered pairs. *)
Definition same_pair (p q : R * R) : Prop :=
  (fst p = fst q /\ snd p = snd q) \/ (fst p = snd q /\ snd p = fst q).

(** Which way the y axis runs.  With [YDown] the point [(x, y)] of a
    rectangle is its top-left corner (screen coordinates); with [YUp] it is
    its bottom-left corner (the docstring of [to_rect]: "bottom left adjusted
    Rectangle"). *)
Inductive orientation : Set :=
| YDown
| YUp.

(** The handle across the rectangle from a given one. *)
Definition opposite (h : Handle) : Handle :=
  match h with
  | TOP_RIGHT => BOTTOM_LEFT
  | MIDDLE_RIGHT => MIDDLE_LEFT
  | BOTTOM_RIGHT => TOP_LEFT
  | TOP_LEFT => BOTTOM_RIGHT
  | MIDDLE_LEFT => MIDDLE_RIGHT
  | BOTTOM_LEFT => TOP_RIGHT
  | TOP_MIDDLE => BOTTOM_MIDDLE
  | BOTTOM_MIDDLE => TOP_MIDDLE
  end.

(** Where a handle sits on the unrotated rectangle, under an orientation. *)
Definition handle_position (o : orientation) (r : Rectangle.t) (h : Handle)
  : Point.t :=
  let left := Rectangle.x r in
  let right := Rectangle.x r + Rectangle.width r in
  let centre := Rectangle.x r + Rectangle.width r / 2 in
  let top :=
    match o with
    | YDown => Rectangle.y r
    | YUp => Rectangle.y r + Rectangle.height r
    end in
  let bottom :=
    match o with
    | YDown => Rectangle.y r + Rectangle.height r
    | YUp => Rectangle.y r
    end in
  let middle := Rectangle.y r + Rectangle.height r / 2 in
  match h with
  | TOP_RIGHT => Point.mk right top
  | MIDDLE_RIGHT => Point.mk right middle
  | BOTTOM_RIGHT => Point.mk right bottom
  | TOP_LEFT => Point.mk left top
  | MIDDLE_LEFT => Point.mk left middle
  | BOTTOM_LEFT => Point.mk left bottom
  | TOP_MIDDLE => Point.mk centre top
  | BOTTOM_MIDDLE => Point.mk centre bottom
  end.

Definition corner_handles : list Handle :=
  [TOP_RIGHT; BOTTOM_RIGHT; TOP_LEFT; BOTTOM_LEFT].

(** The resolver on a corner handle, read under an orientation: the target
    is the moving point and the opposite corner is the fixed one. *)
Definition fixes_opposite_corner (o : orientation) (r : Rectangle.t)
  (t : Point.t) (angle : R) (h : Handle) : Prop :=
  get_adjusted_point r t angle (ObjHandle h)
  = Return (handle_position o r (opposite h), t).

(** What an edge-midpoint handle is to leave alone: a rectangle [r'] has the
    height of [r] for the handles of the left and right edges, and its width
    for those of the top and bottom edges. *)
Definition untouched_dimension_of (h : Handle) (r r' : Rectangle.t) : Prop :=
  match h with
  | MIDDLE_RIGHT | MIDDLE_LEFT => Rectangle.height r' = Rectangle.height r
  | TOP_MIDDLE | BOTTOM_MIDDLE => Rectangle.width r' = Rectangle.width r
  | TOP_RIGHT | BOTTOM_RIGHT | TOP_LEFT | BOTTOM_LEFT => True
  end.

Definition keeps_untouched_dimension (r : Rectangle.t) (t : Point.t)
  (angle : R) (h : Handle) : Prop :=
  exists r', resize r t angle (ObjHandle h) = Return r'
    /\ untouched_dimension_of h r r'.

(** The dimension an edge-midpoint handle leaves alone, as it comes out of
    the two functions in sequence at any angle: a mean of the original
    dimension and its cosine-weighted value, plus a term in the offset of
    the target, taken back to the frame of the rectangle, from the centre. *)
Definition edge_dimension_formula (r : Rectangle.t) (t : Point.t) (angle : R)
  (h : Handle) (r' : Rectangle.t) : Prop :=
  let a := radians angle in
  let centre := Rectangle.pcenter r in
  let normal_c := rotate t centre (- angle) in
  match h with
  | MIDDLE_RIGHT | MIDDLE_LEFT =>
      Rectangle.height r'
      = Rectangle.height r * (1 + cos a) / 2
        + (Point.x normal_c - Point.x centre) * sin a
  | TOP_MIDDLE | BOTTOM_MIDDLE =>
      Rectangle.width r'
      = Rectangle.width r * (1 + cos a) / 2
        - (Point.y normal_c - Point.y centre) * sin a
  | TOP_RIGHT | BOTTOM_RIGHT | TOP_LEFT | BOTTOM_LEFT => True
  end.

(** Both functions raise on a given handle argument. *)
Definition rejects_handle (v : pyobj) : Prop :=
  forall (r : Rectangle.t) (t a c : Point.t) (angle : R),
    raises (get_adjusted_point r t angle v) /\ raises (to_rect a c v).

Definition edge_handles : list Handle :=
  [MIDDLE_RIGHT; MIDDLE_LEFT; TOP_MIDDLE; BOTTOM_MIDDLE].

(** The corner of the rectangle that stays put while a handle is dragged,
    with [(x, y)] the bottom-left corner: the one diagonally opposite a
    corner handle, and for an edge handle the corner at the start of the
    opposite edge. *)
Definition anchor_of (h : Handle) : Handle :=
  match h with
  | TOP_RIGHT | MIDDLE_RIGHT | TOP_MIDDLE => BOTTOM_LEFT
  | BOTTOM_RIGHT | BOTTOM_MIDDLE => TOP_LEFT
  | TOP_LEFT | MIDDLE_LEFT => BOTTOM_RIGHT
  | BOTTOM_LEFT => TOP_RIGHT
  end.

(** * Part III: the properties *)

(** ** Equality of the value types, field by field *)

Lemma Point_eq (p q : Point.t) :
  Point.x p = Point.x q -> Point.y p = Point.y q -> p = q.
Proof. destruct p, q; simpl; intros -> ->; reflexivity. Qed.

Lemma Rectangle_eq (r s : Rectangle.t) :
  Rectangle.x r = Rectangle.x s -> Rectangle.y r = Rectangle.y s ->
  Rectangle.width r = Rectangle.width s ->
  Rectangle.height r = Rectangle.height s -> r = s.
Proof. destruct r, s; simpl; intros -> -> -> ->; reflexivity. Qed.

(** Field access on a constructed value. *)
Ltac fields :=
  cbn [fst snd Point.x Point.y
       Rectangle.x Rectangle.y Rectangle.width Rectangle.height].

(** Runs the [match] statements on a known subject, down to the arithmetic
    of the branch taken. *)
Ltac run_match :=
  cbv beta iota zeta delta
    [get_adjusted_point to_rect resize case_Handle
     py_eq_int Handle_value Z.eqb Pos.eqb orb negb isinstance_int
     Rectangle.__init__ Point.__iter__ Point.__getitem__ app];
  fields.

(** ** The program as it computes: where rounding shows *)

(** The two requirements on the cosine and sine can be met together. *)
Lemma table_math_values :
  Double.exact_at_zero Double.table_math
  /\ Double.half_turn_values Double.table_math.
Proof. vm_compute. repeat split. Qed.

(** Evaluates a call of the program in double precision, given the values
    [F] of the cosine and sine that it uses. *)
Ltac double_eval m F :=
  destruct m as [fcos fsin];
  vm_compute in F;
  repeat match type of F with
         | _ /\ _ => let F1 := fresh "F" in destruct F as [F1 F]
         end;
  vm_compute;
  repeat match goal with
         | E : _ = _ :> float |- _ => rewrite E; clear E
         end;
  vm_compute.

Lemma middle_right_at_zero (m : Double.math) :
  Double.exact_at_zero m ->
  Double.resize m (Double.Rectangle.mk 0.1 0.2 0.3 0.4)
                (Double.Point.mk 0.7 0.9) 0 (ObjHandle MIDDLE_RIGHT)
  = Return (Double.Rectangle.mk 0.1 0.2 0.6 0.4000000000000001).
Proof. intros F. double_eval m F. reflexivity. Qed.

Lemma middle_right_at_half_turn (m : Double.math) :
  Double.half_turn_values m ->
  Double.resize m (Double.Rectangle.mk 0 0 2 2) (Double.Point.mk 3 3) 180
                (ObjHandle MIDDLE_RIGHT)
  = Return (Double.Rectangle.mk 0 0 2.9999999999999996
                                (- 2.220446049250313e-16)).
Proof. intros F. double_eval m F. reflexivity. Qed.

(** C3, as stated, fails on the program as it computes, whatever the cosine
    and sine of the platform.  At angle 0, where they are exact,
    Rectangle(0.1, 0.2, 0.3, 0.4) dragged by MIDDLE_RIGHT to Point(0.7, 0.9)
    comes back with height 0.4000000000000001.  At 180 degrees, with the
    correctly rounded cosine and sine, Rectangle(0, 0, 2, 2) dragged by
    MIDDLE_RIGHT to Point(3, 3) comes back as
    Rectangle(0, 0, 2.9999999999999996, -2.220446049250313e-16). *)
Lemma untouched_dimension_lost_on_doubles :
  (exists m, Double.exact_at_zero m /\ Double.half_turn_values m)
  /\ ~ (exists m,
          Double.exact_at_zero m
          /\ Double.keeps_untouched_dimension
               m (Double.Rectangle.mk 0.1 0.2 0.3 0.4)
               (Double.Point.mk 0.7 0.9) 0 MIDDLE_RIGHT)
  /\ ~ (exists m,
          Double.half_turn_values m
          /\ Double.keeps_untouched_dimension
               m (Double.Rectangle.mk 0 0 2 2) (Double.Point.mk 3 3) 180
               MIDDLE_RIGHT).
Proof.
  split; [exists Double.table_math; exact table_math_values |].
  split.
  - intros (m & F & r' & Hr & Hh).
    rewrite (middle_right_at_zero m F) in Hr. injection Hr as <-.
    vm_compute in Hh. discriminate Hh.
  - intros (m & F & r' & Hr & Hh).
    rewrite (middle_right_at_half_turn m F) in Hr. injection Hr as <-.
    vm_compute in Hh. discriminate Hh.
Qed.

Lemma top_right_identity_drag_on_doubles (m : Double.math) :
  Double.resize m (Double.Rectangle.mk 0.1 0.2 0.3 0.4)
                (Double.Point.mk (0.1 + 0.3) (0.2 + 0.4)) 0
                (ObjHandle TOP_RIGHT)
  = Return (Double.Rectangle.mk 0.1 0.2 0.30000000000000004
                                0.4000000000000001).
Proof. destruct m. vm_compute. reflexivity. Qed.

(** C5, as stated, fails on the program as it computes: the identity drag of
    Rectangle(0.1, 0.2, 0.3, 0.4) by TOP_RIGHT at angle 0 returns
    Rectangle(0.1, 0.2, 0.30000000000000004, 0.4000000000000001), whatever
    the cosine and sine of the platform. *)
Lemma identity_drag_rounds :
  Double.Rectangle.eqb
    (Double.Rectangle.mk 0.1 0.2 0.30000000000000004 0.4000000000000001)
    (Double.Rectangle.mk 0.1 0.2 0.3 0.4)
  = false
  /\ ~ (exists m, Double.identity_drag m (Double.Rectangle.mk 0.1 0.2 0.3 0.4)).
Proof.
  split; [vm_compute; reflexivity |].
  intros (m & r' & Hr & He).
  cbn [Double.Rectangle.x Double.Rectangle.y Double.Rectangle.width
       Double.Rectangle.height] in Hr.
  rewrite (top_right_identity_drag_on_doubles m) in Hr. injection Hr as <-.
  vm_compute in He. discriminate He.
Qed.

Lemma half_turn_on_doubles (m : Double.math) :
  Double.half_turn_values m ->
  Double.rotate m (Double.Point.mk 0 3) (Double.Point.mk 3 0) 180
  = Double.Point.mk 6 (- 3.0000000000000004).
Proof. intros F. double_eval m F. reflexivity. Qed.

(** C7, as stated, fails on the program as it computes: with the correctly
    rounded cosine and sine of a half turn, rotate(Point(0, 3), Point(3, 0),
    180) is Point(6, -3.0000000000000004), at distance 4.242640687119286
    from the origin of the rotation, and Point(0, 3) is at distance
    4.242640687119285. *)
Lemma rotation_changes_distance_on_doubles :
  (Double.distance (Double.Point.mk 0 3) (Double.Point.mk 3 0)
   = 4.242640687119285%float
   /\ Double.distance (Double.Point.mk 6 (- 3.0000000000000004))
                      (Double.Point.mk 3 0)
      = 4.242640687119286%float)
  /\ ~ (exists m,
          Double.half_turn_values m
          /\ Double.keeps_distance m (Double.Point.mk 0 3)
                                   (Double.Point.mk 3 0) 180).
Proof.
  split; [split; vm_compute; reflexivity |].
  intros (m & F & H). unfold Double.keeps_distance in H.
  rewrite (half_turn_on_doubles m F) in H.
  vm_compute in H. discriminate H.
Qed.

(** C9, as stated, fails on the program as it computes: to_rect(Point(0.1,
    0.7), Point(0.7, 0.1), TOP_RIGHT) is Rectangle(0.1, 0.7, 0.6, -0.6), and
    0.7 + -0.6 is 0.09999999999999998, which is neither 0.7 nor 0.1. *)
Lemma to_rect_span_rounds :
  Double.to_rect (Double.Point.mk 0.1 0.7) (Double.Point.mk 0.7 0.1)
                 (ObjHandle TOP_RIGHT)
  = Return (Double.Rectangle.mk 0.1 0.7 0.6 (- 0.6))
  /\ (0.7 + - 0.6 = 0.09999999999999998)%float
  /\ ~ Double.spans TOP_RIGHT (Double.Point.mk 0.1 0.7)
                    (Double.Point.mk 0.7 0.1).
Proof.
  assert (H : Double.to_rect (Double.Point.mk 0.1 0.7)
                             (Double.Point.mk 0.7 0.1) (ObjHandle TOP_RIGHT)
              = Return (Double.Rectangle.mk 0.1 0.7 0.6 (- 0.6)))
    by (vm_compute; reflexivity).
  split; [exact H |]. split; [vm_compute; reflexivity |].
  intros (r & Hr & _ & Hy). rewrite H in Hr. injection Hr as <-.
  vm_compute in Hy. discriminate Hy.
Qed.

Lemma adjust_points_at_zero_on_doubles (m : Double.math) :
  Double.exact_at_zero m ->
  Double.rotate m (Double.Point.mk 0.1 0.2) (Double.Point.mk 0.1 0.3) 0
  = Double.Point.mk 0.1 0.2
  /\ Double.adjust_points m (Double.Point.mk 0.1 0.2)
                          (Double.Point.mk 0.7 0.9) (Double.Point.mk 0.1 0.3)
                          0
     = (Double.Point.mk 0.10000000000000003 0.2, Double.Point.mk 0.7 0.9).
Proof.
  intros F. split.
  - double_eval m F. reflexivity.
  - double_eval m F. reflexivity.
Qed.

(** C10, as stated, fails on the program as it computes: at angle 0, where
    the cosine and sine are exact, adjust_points(Point(0.1, 0.2),
    Point(0.7, 0.9), Point(0.1, 0.3), 0) returns
    (Point(0.10000000000000003, 0.2), Point(0.7, 0.9)), of midpoint
    (0.4, 0.55), and the new centre, the midpoint of Point(0.1, 0.2) and
    Point(0.7, 0.9), is (0.39999999999999997, 0.55). *)
Lemma adjust_points_midpoint_rounds :
  (Double.midpoint (Double.Point.mk 0.10000000000000003 0.2)
                   (Double.Point.mk 0.7 0.9)
   = Double.Point.mk 0.4 0.55
   /\ Double.midpoint (Double.Point.mk 0.1 0.2) (Double.Point.mk 0.7 0.9)
      = Double.Point.mk 0.39999999999999997 0.55)
  /\ ~ (exists m,
          Double.exact_at_zero m
          /\ Double.keeps_midpoint m (Double.Point.mk 0.1 0.2)
                                   (Double.Point.mk 0.7 0.9)
                                   (Double.Point.mk 0.1 0.3) 0).
Proof.
  split; [split; vm_compute; reflexivity |].
  intros (m & F & H). unfold Double.keeps_midpoint in H.
  destruct (adjust_points_at_zero_on_doubles m F) as [Hr Ha].
  rewrite Ha, Hr in H. vm_compute in H. discriminate H.
Qed.

(** ** Angles *)

Lemma radians_opp (a : R) : radians (- a) = - radians a.
Proof. unfold radians. lra. Qed.

Lemma radians_180 : radians 180 = PI.
Proof. unfold radians. field. Qed.

Lemma radians_turns (k : Z) : radians (360 * IZR k) = 2 * (IZR k * PI).
Proof. unfold radians. field. Qed.

Lemma sin_half_turns (k : Z) : sin (IZR k * PI) = 0.
Proof. apply sin_eq_0_1. exists k. reflexivity. Qed.

Lemma sin_turns (k : Z) : sin (radians (360 * IZR k)) = 0.
Proof. rewrite radians_turns, sin_2a, sin_half_turns. ring. Qed.

Lemma cos_turns (k : Z) : cos (radians (360 * IZR k)) = 1.
Proof. rewrite radians_turns, cos_2a_sin, sin_half_turns. ring. Qed.

Lemma pythagoras (a : R) : cos a * cos a + sin a * sin a = 1.
Proof. generalize (sin2_cos2 a). unfold Rsqr. lra. Qed.

Create Rewrite HintDb angles.
Create Rewrite HintDb half_turn.
Create Rewrite HintDb full_turns.

#[local] Hint Rewrite radians_opp cos_neg sin_neg : angles.
#[local] Hint Rewrite radians_180 cos_PI sin_PI : half_turn.
#[local] Hint Rewrite sin_turns cos_turns : full_turns.

(** Replaces the cosine and sine of the angle by two numbers [c] and [s]
    with [c * c + s * s = 1]. *)
Ltac abstract_angle angle c s H :=
  generalize (pythagoras (radians angle));
  generalize (cos (radians angle)) (sin (radians angle));
  intros c s H.

(** ** Rotation *)

(** A rotation acts on differences of points as the rotation matrix. *)
Lemma rotate_diff_x (p q o : Point.t) (a : R) :
  Point.x (rotate p o a) - Point.x (rotate q o a)
  = (Point.x p - Point.x q) * cos (radians a)
    - (Point.y p - Point.y q) * sin (radians a).
Proof. unfold rotate; fields; ring. Qed.

Lemma rotate_diff_y (p q o : Point.t) (a : R) :
  Point.y (rotate p o a) - Point.y (rotate q o a)
  = (Point.x p - Point.x q) * sin (radians a)
    + (Point.y p - Point.y q) * cos (radians a).
Proof. unfold rotate; fields; ring. Qed.

(** C6: rotating by an angle and then by the opposite angle about the same
    origin gives the point back, for every point, origin and angle (exact
    real arithmetic). *)
Theorem rotate_inverse (p o : Point.t) (angle : R) :
  rotate (rotate p o angle) o (- angle) = p.
Proof.
  apply Point_eq; unfold rotate; fields; autorewrite with angles;
    abstract_angle angle c s H.
  - transitivity ((Point.x p - Point.x o) * (c * c + s * s) + Point.x o).
    + ring.
    + rewrite H; ring.
  - transitivity ((Point.y p - Point.y o) * (c * c + s * s) + Point.y o).
    + ring.
    + rewrite H; ring.
Qed.

(** C7, amended: in exact real arithmetic, a rotation keeps the distance to
    its origin: for every point, origin and angle, the distance from the
    point to the origin equals the distance from the rotated point to the
    origin. *)
Theorem rotate_preserves_distance (p o : Point.t) (angle : R) :
  distance p o = distance (rotate p o angle) o.
Proof.
  unfold distance. f_equal.
  unfold rotate; fields.
  abstract_angle angle c s H.
  transitivity
    (((Point.x p - Point.x o) * (Point.x p - Point.x o)
      + (Point.y p - Point.y o) * (Point.y p - Point.y o)) * (c * c + s * s)).
  - rewrite H; ring.
  - ring.
Qed.

(** ** Anchor adjustment *)

(** C10, amended: in exact real arithmetic, the two points returned by
    [adjust_points] have the same midpoint as the rotated first corner and
    the second corner, that is the new centre the function computes. *)
Theorem adjust_points_midpoint (corner_a corner_c center : Point.t) (angle : R) :
  midpoint (fst (adjust_points corner_a corner_c center angle))
           (snd (adjust_points corner_a corner_c center angle))
  = midpoint (rotate corner_a center angle) corner_c.
Proof.
  unfold adjust_points. cbv zeta. fields.
  set (rotated_a := rotate corner_a center angle).
  unfold midpoint. apply Point_eq; fields; unfold rotate at 1 2; fields; field.
Qed.

(** ** The worked example *)

(** C1: for Rectangle(0,0,2,2), target Point(3,3), angle 45 and handle
    BOTTOM_RIGHT, [get_adjusted_point] returns fixed = Point(0,2) and
    moving = Point(3,3); [to_rect] on that pair with BOTTOM_RIGHT returns
    Rectangle(0, 3, 3, -1): the negative height is a returned value, not an
    exception. *)
Theorem example_bottom_right :
  get_adjusted_point (Rectangle.mk 0 0 2 2) (Point.mk 3 3) 45
                     (ObjHandle BOTTOM_RIGHT)
  = Return (Point.mk 0 2, Point.mk 3 3)
  /\ to_rect (Point.mk 0 2) (Point.mk 3 3) (ObjHandle BOTTOM_RIGHT)
     = Return (Rectangle.mk 0 3 3 (-1)).
Proof.
  split.
  - run_match. do 2 f_equal. apply Point_eq; fields; lra.
  - run_match. f_equal. apply Rectangle_eq; fields; lra.
Qed.

(** ** Corner handles *)

(** C2, as stated, fails: with [(x, y)] the top-left corner, the corner
    opposite TOP_RIGHT of Rectangle(0,0,2,2) is (0,2), and the code returns
    (0,0) as the fixed point. *)
Lemma fixed_corner_not_y_down :
  get_adjusted_point (Rectangle.mk 0 0 2 2) (Point.mk 3 3) 45
                     (ObjHandle TOP_RIGHT)
  = Return (Point.mk 0 0, Point.mk 3 3)
  /\ handle_position YDown (Rectangle.mk 0 0 2 2) (opposite TOP_RIGHT)
     = Point.mk 0 (0 + 2)
  /\ ~ fixes_opposite_corner YDown (Rectangle.mk 0 0 2 2) (Point.mk 3 3) 45
                             TOP_RIGHT.
Proof.
  split; [reflexivity |]. split; [reflexivity |].
  unfold fixes_opposite_corner. run_match.
  cbv beta iota zeta delta [handle_position opposite]. fields.
  intros H. injection H as H. lra.
Qed.

(** C2, amended: for every rectangle, target, angle and corner handle,
    [get_adjusted_point] returns the target unchanged as the moving point and,
    as the fixed point, the corner diagonally opposite the handle when
    [(x, y)] is the bottom-left corner (y axis upwards): (x, y) for TOP_RIGHT,
    (x, y+height) for BOTTOM_RIGHT, (x+width, y) for TOP_LEFT and
    (x+width, y+height) for BOTTOM_LEFT. *)
Theorem corner_handle_fixes_opposite_corner
  (r : Rectangle.t) (t : Point.t) (angle : R) (h : Handle) :
  In h corner_handles ->
  fixes_opposite_corner YUp r t angle h.
Proof.
  unfold corner_handles, fixes_opposite_corner.
  intros [<- | [<- | [<- | [<- | []]]]]; reflexivity.
Qed.

Lemma corner_handle_fixes_opposite_corner_witness :
  In BOTTOM_RIGHT corner_handles
  /\ fixes_opposite_corner YUp (Rectangle.mk 0 0 2 2) (Point.mk 3 3) 45
                           BOTTOM_RIGHT.
Proof.
  assert (Hin : In BOTTOM_RIGHT corner_handles) by (simpl; auto).
  split; [exact Hin |].
  exact (corner_handle_fixes_opposite_corner
           (Rectangle.mk 0 0 2 2) (Point.mk 3 3) 45 BOTTOM_RIGHT Hin).
Defined.

(** ** Edge-midpoint handles *)

(** C3, amended: in exact real arithmetic, for every rectangle and target.
    (1) At every angle that is a whole number of turns (360 k degrees for an
    integer k, in particular 0), the rectangle
    [to_rect( *get_adjusted_point(R, t, angle, h), h)] has the height of R
    when h is MIDDLE_RIGHT or MIDDLE_LEFT and the width of R when h is
    TOP_MIDDLE or BOTTOM_MIDDLE.  (2) At every angle, that height is
    R.height (1 + cos a) / 2 + (normal_c.x - center.x) sin a and that width
    is R.width (1 + cos a) / 2 - (normal_c.y - center.y) sin a, where a is
    the angle in radians, center the centre of R and normal_c the target
    rotated by the opposite angle about it. *)
Theorem edge_handle_dimension
  (r : Rectangle.t) (t : Point.t) (h : Handle) :
  (forall k : Z, keeps_untouched_dimension r t (360 * IZR k) h)
  /\ (forall angle : R,
        exists r', resize r t angle (ObjHandle h) = Return r'
          /\ edge_dimension_formula r t angle h r').
Proof.
  split.
  - intros k. unfold keeps_untouched_dimension.
    destruct h; eexists; (split; [run_match; reflexivity |]);
      unfold untouched_dimension_of; try exact I;
      unfold rotate, Rectangle.pcenter; fields;
      autorewrite with angles full_turns; field.
  - intros angle.
    destruct h; eexists; (split; [run_match; reflexivity |]);
      unfold edge_dimension_formula; cbv zeta; try exact I;
      unfold rotate, Rectangle.pcenter; fields;
      autorewrite with angles; field.
Qed.

(** ** Values that match no handle *)

(** C4, as stated, fails: the integer 8 is no member of [Handle], and both
    functions return [None] on it instead of raising. *)
Lemma handle_8_not_rejected :
  ~ is_Handle (ObjInt 8)
  /\ get_adjusted_point (Rectangle.mk 0 0 2 2) (Point.mk 3 3) 45 (ObjInt 8)
     = ReturnNone
  /\ to_rect (Point.mk 0 2) (Point.mk 3 3) (ObjInt 8) = ReturnNone
  /\ ~ rejects_handle (ObjInt 8).
Proof.
  split; [intros [h H]; discriminate H |].
  split; [reflexivity |]. split; [reflexivity |].
  intros H.
  destruct (H (Rectangle.mk 0 0 2 2) (Point.mk 3 3) (Point.mk 0 2)
              (Point.mk 3 3) 45) as [[e He] _].
  discriminate He.
Qed.

(** C4, amended: for every value that compares equal to none of the eight
    members of [Handle], [get_adjusted_point] and [to_rect] raise nothing:
    no case of the [match] is taken and the call returns [None]. *)
Theorem unmatched_handle_returns_None
  (v : pyobj) (r : Rectangle.t) (t a c : Point.t) (angle : R) :
  (forall h, case_Handle v h = false) ->
  get_adjusted_point r t angle v = ReturnNone
  /\ to_rect a c v = ReturnNone
  /\ ~ raises (get_adjusted_point r t angle v)
  /\ ~ raises (to_rect a c v).
Proof.
  intros H.
  assert (Hg : get_adjusted_point r t angle v = ReturnNone)
    by (unfold get_adjusted_point; rewrite !H; reflexivity).
  assert (Ht : to_rect a c v = ReturnNone)
    by (unfold to_rect; rewrite !H; reflexivity).
  rewrite Hg, Ht.
  split; [reflexivity |]. split; [reflexivity |].
  split; intros [e He]; discriminate He.
Qed.

Lemma unmatched_handle_returns_None_witness :
  get_adjusted_point (Rectangle.mk 0 0 2 2) (Point.mk 3 3) 45 (ObjInt 8)
  = ReturnNone
  /\ to_rect (Point.mk 0 2) (Point.mk 3 3) (ObjInt 8) = ReturnNone
  /\ ~ raises (get_adjusted_point (Rectangle.mk 0 0 2 2) (Point.mk 3 3) 45
                                  (ObjInt 8))
  /\ ~ raises (to_rect (Point.mk 0 2) (Point.mk 3 3) (ObjInt 8)).
Proof.
  apply (unmatched_handle_returns_None (ObjInt 8)).
  intros h; destruct h; reflexivity.
Defined.

(** ** Round trip, indexing and span *)

(** C5, amended: in exact real arithmetic, at angle 0, dragging TOP_RIGHT
    to (x + width, y + height) and rebuilding the rectangle gives the
    rectangle back. *)
Theorem identity_drag_top_right (r : Rectangle.t) :
  resize r
         (Point.mk (Rectangle.x r + Rectangle.width r)
                   (Rectangle.y r + Rectangle.height r))
         0 (ObjHandle TOP_RIGHT)
  = Return r.
Proof.
  run_match. f_equal. apply Rectangle_eq; fields; ring.
Qed.

(** C8: indexing a point by the integer 0 gives x, by 1 gives y, and by any
    other integer raises the out-of-range error [IndexError]. *)
Theorem Point_getitem_int (p : Point.t) (n : Z) :
  Point.__getitem__ p (ObjInt 0) = Return (Point.x p)
  /\ Point.__getitem__ p (ObjInt 1) = Return (Point.y p)
  /\ (n <> 0%Z -> n <> 1%Z ->
      Point.__getitem__ p (ObjInt n) = Raise IndexError).
Proof.
  split; [reflexivity |]. split; [reflexivity |].
  intros H0 H1. unfold Point.__getitem__, py_eq_int, isinstance_int.
  cbn [negb].
  apply Z.eqb_neq in H0, H1. rewrite H0, H1. reflexivity.
Qed.

Lemma Point_getitem_int_witness :
  Point.__getitem__ (Point.mk 5 7) (ObjInt 0) = Return 5
  /\ Point.__getitem__ (Point.mk 5 7) (ObjInt 1) = Return 7
  /\ Point.__getitem__ (Point.mk 5 7) (ObjInt 2) = Raise IndexError
  /\ Point.__getitem__ (Point.mk 5 7) (ObjInt (-1)) = Raise IndexError.
Proof.
  destruct (Point_getitem_int (Point.mk 5 7) 2) as (H0 & H1 & H2).
  destruct (Point_getitem_int (Point.mk 5 7) (-1)) as (_ & _ & H3).
  split; [exact H0 |].
  split; [exact H1 |].
  split; [apply H2 | apply H3]; lia.
Defined.

(** C9, amended: in exact real arithmetic, for each of the eight handles
    and all points a and c, [to_rect] returns a rectangle r with
    {r.x, r.x + r.width} = {a.x, c.x} and {r.y, r.y + r.height} = {a.y, c.y}
    as unordered pairs. *)
Theorem to_rect_spans (h : Handle) (a c : Point.t) :
  exists r, to_rect a c (ObjHandle h) = Return r
    /\ same_pair (Rectangle.x r, Rectangle.x r + Rectangle.width r)
                 (Point.x a, Point.x c)
    /\ same_pair (Rectangle.y r, Rectangle.y r + Rectangle.height r)
                 (Point.y a, Point.y c).
Proof.
  destruct h; eexists; (split; [run_match; reflexivity |]);
    unfold same_pair; fields;
    split; solve [left; split; ring | right; split; ring].
Qed.

(** * Part IV: further properties of the operations *)

(** ** More on angles *)

Lemma radians_0 : radians 0 = 0.
Proof. unfold radians. field. Qed.

Lemma radians_90 : radians 90 = PI / 2.
Proof. unfold radians. field. Qed.

Lemma radians_add (a b : R) : radians (a + b) = radians a + radians b.
Proof. unfold radians. field. Qed.

Lemma turns_opp (k : Z) : - (360 * IZR k) = 360 * IZR (- k).
Proof. rewrite opp_IZR. ring. Qed.

Create Rewrite HintDb no_turn.
Create Rewrite HintDb quarter_turn.

#[local] Hint Rewrite radians_0 cos_0 sin_0 : no_turn.
#[local] Hint Rewrite radians_90 cos_PI2 sin_PI2 : quarter_turn.

(** The two coordinates of a rotated point, as the source computes them. *)
Lemma rotate_x (p o : Point.t) (a : R) :
  Point.x (rotate p o a)
  = (Point.x p - Point.x o) * cos (radians a)
    - (Point.y p - Point.y o) * sin (radians a) + Point.x o.
Proof. reflexivity. Qed.

Lemma rotate_y (p o : Point.t) (a : R) :
  Point.y (rotate p o a)
  = (Point.x p - Point.x o) * sin (radians a)
    + (Point.y p - Point.y o) * cos (radians a) + Point.y o.
Proof. reflexivity. Qed.

Ltac rotate_coords := repeat first [rewrite rotate_x | rewrite rotate_y].

(** Rotating back and forth, in either order. *)
Lemma rotate_back (p o : Point.t) (a : R) :
  rotate (rotate p o a) o (- a) = p.
Proof.
  apply Point_eq; rotate_coords; autorewrite with angles;
    abstract_angle a c s H.
  - transitivity ((Point.x p - Point.x o) * (c * c + s * s) + Point.x o);
      [ring | rewrite H; ring].
  - transitivity ((Point.y p - Point.y o) * (c * c + s * s) + Point.y o);
      [ring | rewrite H; ring].
Qed.

Lemma rotate_forth (p o : Point.t) (a : R) :
  rotate (rotate p o (- a)) o a = p.
Proof.
  rewrite <- (Ropp_involutive a) at 2. apply rotate_back.
Qed.

(** A whole number of turns leaves every point where it is. *)
Lemma rotate_turns (p o : Point.t) (k : Z) : rotate p o (360 * IZR k) = p.
Proof.
  apply Point_eq; rotate_coords;
    autorewrite with full_turns; ring.
Qed.

(** ** Rotation, continued *)

(** Rotation by no angle is the identity, and every rotation leaves its
    origin in place. *)
Theorem rotate_identities (p o : Point.t) (angle : R) :
  rotate p o 0 = p /\ rotate o o angle = o.
Proof.
  split; apply Point_eq; rotate_coords;
    autorewrite with no_turn; ring.
Qed.

(** In exact real arithmetic.  Two rotations about the same origin compose
    to the rotation by the sum of the angles. *)
Theorem rotate_compose (p o : Point.t) (a b : R) :
  rotate (rotate p o a) o b = rotate p o (a + b).
Proof.
  apply Point_eq; rotate_coords; rewrite radians_add, cos_plus, sin_plus;
    ring.
Qed.

(** In exact real arithmetic.  Angles count modulo 360 degrees. *)
Theorem rotate_periodic (p o : Point.t) (angle : R) (k : Z) :
  rotate p o (angle + 360 * IZR k) = rotate p o angle.
Proof.
  apply Point_eq; rotate_coords; rewrite radians_add, cos_plus, sin_plus;
    autorewrite with full_turns; ring.
Qed.

(** In exact real arithmetic.  A rotation keeps the distance between any two
    points. *)
Theorem rotate_isometry (p q o : Point.t) (angle : R) :
  distance (rotate p o angle) (rotate q o angle) = distance p q.
Proof.
  unfold distance. f_equal.
  rewrite rotate_diff_x, rotate_diff_y.
  abstract_angle angle c s H.
  transitivity
    (((Point.x p - Point.x q) * (Point.x p - Point.x q)
      + (Point.y p - Point.y q) * (Point.y p - Point.y q)) * (c * c + s * s)).
  - ring.
  - rewrite H; ring.
Qed.

(** In exact real arithmetic.  A rotation maps the midpoint of two points to
    the midpoint of their images. *)
Theorem rotate_midpoint (p q o : Point.t) (angle : R) :
  rotate (midpoint p q) o angle
  = midpoint (rotate p o angle) (rotate q o angle).
Proof.
  unfold midpoint.
  apply Point_eq; fields; rotate_coords; fields; field.
Qed.

(** In exact real arithmetic.  The sense of rotation: a quarter turn sends
    the offset (dx, dy) from the origin to (-dy, dx), that is counter-
    clockwise when the y axis points up, and a half turn reflects the point
    through the origin. *)
Theorem rotate_quarter_and_half_turn (p o : Point.t) :
  rotate p o 90
  = Point.mk (Point.x o - (Point.y p - Point.y o))
             (Point.y o + (Point.x p - Point.x o))
  /\ rotate p o 180
     = Point.mk (2 * Point.x o - Point.x p) (2 * Point.y o - Point.y p).
Proof.
  split; apply Point_eq; fields; rotate_coords.
  - autorewrite with quarter_turn; ring.
  - autorewrite with quarter_turn; ring.
  - autorewrite with half_turn; ring.
  - autorewrite with half_turn; ring.
Qed.

(** ** Anchor adjustment, continued *)

(** Proves an equation of real polynomials in [c] and [s] that holds up to
    [k] times [c * c + s * s - 1], given [H : c * c + s * s = 1]. *)
Ltac modulo_unit_circle H k :=
  match type of H with
  | ?u = 1 =>
      apply Rminus_diag_uniq;
      transitivity (k * (u - 1)); [field | rewrite H; ring]
  end.

(** A rotation keeps the squared distance between two points. *)
Lemma rotate_sq_dist (p q o : Point.t) (a : R) :
  (Point.x (rotate p o a) - Point.x (rotate q o a))
  * (Point.x (rotate p o a) - Point.x (rotate q o a))
  + (Point.y (rotate p o a) - Point.y (rotate q o a))
    * (Point.y (rotate p o a) - Point.y (rotate q o a))
  = (Point.x p - Point.x q) * (Point.x p - Point.x q)
    + (Point.y p - Point.y q) * (Point.y p - Point.y q).
Proof.
  rewrite rotate_diff_x, rotate_diff_y.
  abstract_angle a c s H.
  transitivity
    (((Point.x p - Point.x q) * (Point.x p - Point.x q)
      + (Point.y p - Point.y q) * (Point.y p - Point.y q)) * (c * c + s * s)).
  - ring.
  - rewrite H; ring.
Qed.

(** Rotating two points about their own midpoint keeps that midpoint. *)
Lemma rotate_about_midpoint (p q : Point.t) (a : R) :
  midpoint (rotate p (midpoint p q) a) (rotate q (midpoint p q) a)
  = midpoint p q.
Proof.
  apply Point_eq; unfold midpoint at 1; fields; rotate_coords;
    unfold midpoint; fields; field.
Qed.

(** The body of [adjust_points], with the new centre named. *)
Lemma adjust_points_eq (a c o : Point.t) (angle : R) :
  adjust_points a c o angle
  = (rotate (rotate a o angle) (midpoint (rotate a o angle) c) (- angle),
     rotate c (midpoint (rotate a o angle) c) (- angle)).
Proof. reflexivity. Qed.

(** Two points turned back about their midpoint and then forth about the
    midpoint of the results are where they were. *)
Lemma rerotate_pair (p q : Point.t) (a : R) :
  rotate (rotate p (midpoint p q) (- a))
         (midpoint (rotate p (midpoint p q) (- a))
                   (rotate q (midpoint p q) (- a)))
         a
  = p
  /\ rotate (rotate q (midpoint p q) (- a))
            (midpoint (rotate p (midpoint p q) (- a))
                      (rotate q (midpoint p q) (- a)))
            a
     = q.
Proof.
  rewrite rotate_about_midpoint. split; apply rotate_forth.
Qed.

(** In exact real arithmetic.  What [adjust_points] is for: turning the two
    returned points by the angle about their own midpoint puts the first on
    the rotated first corner and the second on the second corner. *)
Theorem adjust_points_rerotate (a c o : Point.t) (angle : R) :
  rotate (fst (adjust_points a c o angle))
         (midpoint (fst (adjust_points a c o angle))
                   (snd (adjust_points a c o angle)))
         angle
  = rotate a o angle
  /\ rotate (snd (adjust_points a c o angle))
            (midpoint (fst (adjust_points a c o angle))
                      (snd (adjust_points a c o angle)))
            angle
     = c.
Proof.
  rewrite adjust_points_eq. cbn [fst snd]. apply rerotate_pair.
Qed.

(** In exact real arithmetic.  The two returned points are as far apart as
    the rotated first corner and the second corner. *)
Theorem adjust_points_distance (a c o : Point.t) (angle : R) :
  distance (fst (adjust_points a c o angle)) (snd (adjust_points a c o angle))
  = distance (rotate a o angle) c.
Proof.
  rewrite adjust_points_eq. cbn [fst snd].
  unfold distance. f_equal. apply rotate_sq_dist.
Qed.

(** In exact real arithmetic.  At a whole number of turns [adjust_points]
    returns its two corners. *)
Theorem adjust_points_turns (a c o : Point.t) (k : Z) :
  adjust_points a c o (360 * IZR k) = (a, c).
Proof.
  rewrite adjust_points_eq, turns_opp, !rotate_turns. reflexivity.
Qed.

(** In exact real arithmetic.  Round trip about the true centre: when the
    second corner is the diagonal corner rotated about the midpoint of the
    two, and that midpoint is the centre given, [adjust_points] returns the
    two unrotated corners. *)
Theorem adjust_points_round_trip (a c : Point.t) (angle : R) :
  adjust_points a (rotate c (midpoint a c) angle) (midpoint a c) angle
  = (a, c).
Proof.
  rewrite adjust_points_eq, rotate_about_midpoint, !rotate_back.
  reflexivity.
Qed.

(** In exact real arithmetic.  When the second corner was rotated about the
    same centre as the first is going to be, [adjust_points] translates the
    two unrotated corners by the displacement of their midpoint under that
    rotation. *)
Theorem adjust_points_translates (a c o : Point.t) (angle : R) :
  let m := midpoint a c in
  let m' := rotate m o angle in
  let ac' := adjust_points a (rotate c o angle) o angle in
  Point.x (fst ac') - Point.x a = Point.x m' - Point.x m
  /\ Point.y (fst ac') - Point.y a = Point.y m' - Point.y m
  /\ Point.x (snd ac') - Point.x c = Point.x m' - Point.x m
  /\ Point.y (snd ac') - Point.y c = Point.y m' - Point.y m.
Proof.
  cbv zeta. rewrite adjust_points_eq. cbn [fst snd].
  unfold midpoint. rotate_coords. fields. rotate_coords.
  autorewrite with angles.
  abstract_angle angle cs sn H.
  repeat split.
  - modulo_unit_circle H ((Point.x a - Point.x c) / 2).
  - modulo_unit_circle H ((Point.y a - Point.y c) / 2).
  - modulo_unit_circle H ((Point.x c - Point.x a) / 2).
  - modulo_unit_circle H ((Point.y c - Point.y a) / 2).
Qed.

(** ** The patterns of the two [match] statements *)

Lemma Handle_value_inj (h h' : Handle) :
  Handle_value h = Handle_value h' -> h = h'.
Proof. destruct h, h'; intros H; first [reflexivity | discriminate H]. Qed.

(** The cases are disjoint: an argument matches at most one member of
    [Handle], a member matches its own case and no other, and an integer
    matches the member that carries it. *)
Theorem handle_cases_disjoint (v : pyobj) (h h' : Handle) (n : Z) :
  (case_Handle v h = true -> case_Handle v h' = true -> h = h')
  /\ (case_Handle (ObjHandle h) h' = true <-> h = h')
  /\ (case_Handle (ObjInt n) h = true <-> n = Handle_value h).
Proof.
  unfold case_Handle. repeat split.
  - destruct v; cbn [py_eq_int]; intros H H'; try discriminate H;
      apply Z.eqb_eq in H, H'; apply Handle_value_inj; congruence.
  - cbn [py_eq_int]. intros H. apply Z.eqb_eq in H.
    apply Handle_value_inj, H.
  - intros ->. cbn [py_eq_int]. apply Z.eqb_refl.
  - cbn [py_eq_int]. apply Z.eqb_eq.
  - cbn [py_eq_int]. apply Z.eqb_eq.
Qed.

Lemma handle_cases_disjoint_witness :
  case_Handle (ObjInt 2) BOTTOM_RIGHT = true
  /\ (forall h', case_Handle (ObjInt 2) h' = true -> BOTTOM_RIGHT = h').
Proof.
  split; [reflexivity |].
  intros h' H.
  exact (proj1 (handle_cases_disjoint (ObjInt 2) BOTTOM_RIGHT h' 0)
               eq_refl H).
Defined.





(** ** Resolver and reconstructor on the corners of the rectangle *)

Ltac run_match_in H :=
  cbv beta iota zeta delta
    [to_rect case_Handle py_eq_int Handle_value Z.eqb Pos.eqb orb
     Rectangle.__init__ Point.__iter__ app] in H.

Ltac positions :=
  cbv beta iota zeta delta [handle_position opposite anchor_of]; fields.

(** The resolver's fixed point is the anchor corner of the handle, and for
    a corner handle its moving point is the target. *)
Lemma get_adjusted_point_anchor
  (h : Handle) (r : Rectangle.t) (t : Point.t) (angle : R) :
  exists moving,
    get_adjusted_point r t angle (ObjHandle h)
    = Return (handle_position YUp r (anchor_of h), moving)
    /\ (In h corner_handles -> moving = t).
Proof.
  destruct h; eexists; (split; [reflexivity |]);
    first [reflexivity
          | intros [H | [H | [H | [H | []]]]]; discriminate H].
Qed.

(** The reconstructor puts its first point on the anchor corner of the
    handle and its second on the corner diagonally opposite, so that the
    centre of the rectangle is their midpoint. *)
Lemma to_rect_anchored (h : Handle) (a c : Point.t) :
  exists r', to_rect a c (ObjHandle h) = Return r'
    /\ handle_position YUp r' (anchor_of h) = a
    /\ handle_position YUp r' (opposite (anchor_of h)) = c
    /\ Rectangle.pcenter r' = midpoint a c.
Proof.
  destruct h; eexists; (split; [run_match; reflexivity |]);
    (split; [| split]); apply Point_eq;
    unfold Rectangle.pcenter, midpoint; positions; field.
Qed.

Lemma corner_anchor (h : Handle) :
  In h corner_handles ->
  anchor_of h = opposite h /\ opposite (anchor_of h) = h.
Proof.
  intros [<- | [<- | [<- | [<- | []]]]]; split; reflexivity.
Qed.

(** For each of the eight handles and every angle, the pair of the resolver
    has as its fixed point one of the four corners of the rectangle, the
    same whatever the target and the angle. *)
Theorem fixed_point_is_a_corner
  (h : Handle) (r : Rectangle.t) (t t' : Point.t) (angle angle' : R) :
  exists fixed moving moving',
    get_adjusted_point r t angle (ObjHandle h) = Return (fixed, moving)
    /\ get_adjusted_point r t' angle' (ObjHandle h) = Return (fixed, moving')
    /\ In fixed (map (handle_position YUp r) corner_handles).
Proof.
  destruct (get_adjusted_point_anchor h r t angle) as (m & Hm & _).
  destruct (get_adjusted_point_anchor h r t' angle') as (m' & Hm' & _).
  exists (handle_position YUp r (anchor_of h)), m, m'.
  split; [exact Hm |]. split; [exact Hm' |].
  apply in_map. destruct h; simpl; auto.
Qed.

(** In exact real arithmetic.  [to_rect] builds the rectangle whose anchor
    corner (for the handle, with the y axis upwards) is the fixed point and
    whose diagonally opposite corner is the moving point. *)
Theorem to_rect_places_anchors (h : Handle) (a c : Point.t) :
  exists r', to_rect a c (ObjHandle h) = Return r'
    /\ handle_position YUp r' (anchor_of h) = a
    /\ handle_position YUp r' (opposite (anchor_of h)) = c.
Proof.
  destruct (to_rect_anchored h a c) as (r' & Hr & Ha & Hc & _).
  exists r'. auto.
Qed.

(** In exact real arithmetic.  The rectangle [to_rect] builds is centred on
    the midpoint of its two points, for every handle. *)
Theorem to_rect_centre (h : Handle) (a c : Point.t) :
  exists r', to_rect a c (ObjHandle h) = Return r'
    /\ Rectangle.pcenter r' = midpoint a c
    /\ Point.pos (Rectangle.pcenter r') = Rectangle.center r'.
Proof.
  destruct (to_rect_anchored h a c) as (r' & Hr & _ & _ & Hm).
  exists r'. split; [exact Hr |]. split; [exact Hm | reflexivity].
Qed.

(** A corner handle and the opposite one build the same rectangle when the
    fixed and the moving point change roles. *)
Theorem to_rect_opposite_corner (h : Handle) (a c : Point.t) :
  In h corner_handles ->
  to_rect a c (ObjHandle h) = to_rect c a (ObjHandle (opposite h)).
Proof.
  intros [<- | [<- | [<- | [<- | []]]]]; cbv delta [opposite]; run_match;
    f_equal; apply Rectangle_eq; fields; ring.
Qed.

Lemma to_rect_opposite_corner_witness :
  to_rect (Point.mk 0 2) (Point.mk 3 3) (ObjHandle BOTTOM_RIGHT)
  = to_rect (Point.mk 3 3) (Point.mk 0 2) (ObjHandle (opposite BOTTOM_RIGHT)).
Proof.
  apply (to_rect_opposite_corner BOTTOM_RIGHT). simpl. auto.
Defined.

(** In exact real arithmetic.  When the rectangle [to_rect] returns has no
    negative dimension, it is the bounding box of the two points: its
    position is their least x and least y, its dimensions their distances
    along the axes. *)
Theorem to_rect_bounding_box (h : Handle) (a c : Point.t) (r' : Rectangle.t) :
  to_rect a c (ObjHandle h) = Return r' ->
  0 <= Rectangle.width r' -> 0 <= Rectangle.height r' ->
  Rectangle.x r' = Rmin (Point.x a) (Point.x c)
  /\ Rectangle.y r' = Rmin (Point.y a) (Point.y c)
  /\ Rectangle.width r' = Rabs (Point.x c - Point.x a)
  /\ Rectangle.height r' = Rabs (Point.y c - Point.y a).
Proof.
  intros H Hw Hh.
  destruct h; run_match_in H; injection H as <-; revert Hw Hh; fields;
    intros Hw Hh; unfold Rmin, Rabs;
    destruct (Rle_dec (Point.x a) (Point.x c));
    destruct (Rle_dec (Point.y a) (Point.y c));
    destruct (Rcase_abs (Point.x c - Point.x a));
    destruct (Rcase_abs (Point.y c - Point.y a));
    repeat split; lra.
Qed.

Lemma to_rect_bounding_box_witness :
  Rectangle.x (Rectangle.mk 0 0 3 2) = Rmin 0 3
  /\ Rectangle.y (Rectangle.mk 0 0 3 2) = Rmin 0 2
  /\ Rectangle.width (Rectangle.mk 0 0 3 2) = Rabs (3 - 0)
  /\ Rectangle.height (Rectangle.mk 0 0 3 2) = Rabs (2 - 0).
Proof.
  apply (to_rect_bounding_box TOP_RIGHT (Point.mk 0 0) (Point.mk 3 2)).
  - run_match. f_equal. apply Rectangle_eq; fields; lra.
  - simpl; lra.
  - simpl; lra.
Defined.

(** ** The resolver followed by the reconstructor *)

(** In exact real arithmetic.  Dragging a corner handle, at any angle: in
    the rectangle returned the dragged corner is the target and the opposite
    corner has not moved (corners named with the y axis upwards). *)
Theorem corner_drag_lands_on_target
  (r : Rectangle.t) (t : Point.t) (angle : R) (h : Handle) :
  In h corner_handles ->
  exists r', resize r t angle (ObjHandle h) = Return r'
    /\ handle_position YUp r' h = t
    /\ handle_position YUp r' (opposite h)
       = handle_position YUp r (opposite h).
Proof.
  intros Hc.
  destruct (get_adjusted_point_anchor h r t angle) as (m & Hm & Ht).
  rewrite (Ht Hc) in Hm.
  destruct (to_rect_anchored h (handle_position YUp r (anchor_of h)) t)
    as (r' & Hr & Ha & Hd & _).
  destruct (corner_anchor h Hc) as [E1 E2]. rewrite E2 in Hd. rewrite E1 in *.
  exists r'. split; [| split; assumption].
  unfold resize. rewrite Hm. exact Hr.
Qed.

Lemma corner_drag_lands_on_target_witness :
  exists r',
    resize (Rectangle.mk 0 0 2 2) (Point.mk 3 3) 45 (ObjHandle BOTTOM_RIGHT)
    = Return r'
    /\ handle_position YUp r' BOTTOM_RIGHT = Point.mk 3 3
    /\ handle_position YUp r' (opposite BOTTOM_RIGHT)
       = handle_position YUp (Rectangle.mk 0 0 2 2) (opposite BOTTOM_RIGHT).
Proof.
  apply (corner_drag_lands_on_target
           (Rectangle.mk 0 0 2 2) (Point.mk 3 3) 45 BOTTOM_RIGHT).
  simpl. auto.
Defined.

(** In exact real arithmetic.  For a corner handle, when the target is the
    position of the handle on the unrotated rectangle, the two functions in
    sequence give the rectangle back; the corner branches do not use the
    angle, so this holds whatever angle is passed. *)
Theorem corner_identity_drag (r : Rectangle.t) (angle : R) (h : Handle) :
  In h corner_handles ->
  resize r (handle_position YUp r h) angle (ObjHandle h) = Return r.
Proof.
  intros [<- | [<- | [<- | [<- | []]]]]; run_match; f_equal; positions;
    apply Rectangle_eq; fields; ring.
Qed.

Lemma corner_identity_drag_witness :
  resize (Rectangle.mk 0 0 2 2)
         (handle_position YUp (Rectangle.mk 0 0 2 2) BOTTOM_LEFT) 45
         (ObjHandle BOTTOM_LEFT)
  = Return (Rectangle.mk 0 0 2 2).
Proof.
  apply (corner_identity_drag (Rectangle.mk 0 0 2 2) 45 BOTTOM_LEFT).
  simpl. auto.
Defined.

(** In exact real arithmetic.  On a rectangle turned by a whole number of
    turns, dragging any of the eight handles to where it already is gives
    the rectangle back. *)
Theorem identity_drag_whole_turns (r : Rectangle.t) (k : Z) (h : Handle) :
  resize r (handle_position YUp r h) (360 * IZR k) (ObjHandle h) = Return r.
Proof.
  destruct h; run_match; f_equal; unfold rotate, Rectangle.pcenter;
    positions; autorewrite with angles full_turns;
    apply Rectangle_eq; fields; field.
Qed.

(** In exact real arithmetic.  On a rectangle turned by a whole number of
    turns, an edge handle moves its own edge to the coordinate of the target
    and nothing else: the right and top handles set the width and the
    height, the left and bottom handles move x and y and keep the far edge. *)
Theorem edge_drag_unrotated (r : Rectangle.t) (t : Point.t) (k : Z) :
  resize r t (360 * IZR k) (ObjHandle MIDDLE_RIGHT)
  = Return (Rectangle.mk (Rectangle.x r) (Rectangle.y r)
                         (Point.x t - Rectangle.x r) (Rectangle.height r))
  /\ resize r t (360 * IZR k) (ObjHandle MIDDLE_LEFT)
     = Return (Rectangle.mk (Point.x t) (Rectangle.y r)
                            (Rectangle.x r + Rectangle.width r - Point.x t)
                            (Rectangle.height r))
  /\ resize r t (360 * IZR k) (ObjHandle TOP_MIDDLE)
     = Return (Rectangle.mk (Rectangle.x r) (Rectangle.y r)
                            (Rectangle.width r) (Point.y t - Rectangle.y r))
  /\ resize r t (360 * IZR k) (ObjHandle BOTTOM_MIDDLE)
     = Return (Rectangle.mk (Rectangle.x r) (Point.y t) (Rectangle.width r)
                            (Rectangle.y r + Rectangle.height r - Point.y t)).
Proof.
  repeat apply conj; run_match; f_equal; unfold rotate, Rectangle.pcenter;
    fields; autorewrite with angles full_turns;
    apply Rectangle_eq; fields; field.
Qed.

(** In exact real arithmetic.  For an edge handle the moving point, taken
    back to the frame of the unrotated rectangle, has one coordinate of the
    target taken back to that frame and one coordinate of the rectangle: the
    x of the target and the far y for the left and right handles, the far x
    and the y of the target for the top and bottom handles. *)
Theorem edge_handle_local_frame
  (r : Rectangle.t) (t : Point.t) (angle : R) (h : Handle) :
  In h edge_handles ->
  exists fixed moving,
    get_adjusted_point r t angle (ObjHandle h) = Return (fixed, moving)
    /\ rotate moving (Rectangle.pcenter r) (- angle)
       = match h with
         | MIDDLE_RIGHT | MIDDLE_LEFT =>
             Point.mk
               (Point.x (rotate t (Rectangle.pcenter r) (- angle)))
               (Rectangle.y r + Rectangle.height r)
         | _ =>
             Point.mk
               (Rectangle.x r + Rectangle.width r)
               (Point.y (rotate t (Rectangle.pcenter r) (- angle)))
         end.
Proof.
  intros [<- | [<- | [<- | [<- | []]]]]; do 2 eexists;
    (split; [reflexivity | apply rotate_back]).
Qed.

Lemma edge_handle_local_frame_witness :
  exists fixed moving,
    get_adjusted_point (Rectangle.mk 0 0 2 2) (Point.mk 3 3) 45
                       (ObjHandle MIDDLE_RIGHT)
    = Return (fixed, moving)
    /\ rotate moving (Rectangle.pcenter (Rectangle.mk 0 0 2 2)) (- 45)
       = Point.mk
           (Point.x (rotate (Point.mk 3 3)
                            (Rectangle.pcenter (Rectangle.mk 0 0 2 2))
                            (- 45)))
           (Rectangle.y (Rectangle.mk 0 0 2 2)
            + Rectangle.height (Rectangle.mk 0 0 2 2)).
Proof.
  apply (edge_handle_local_frame
           (Rectangle.mk 0 0 2 2) (Point.mk 3 3) 45 MIDDLE_RIGHT).
  simpl. auto.
Defined.

(** ** The value types *)

(** Indexing a point by an integer agrees with iterating over it: an index
    from 0 gives the value yielded at that position, and an index past the
    two values, or a negative one, raises [IndexError] (there is no counting
    from the end). *)
Theorem Point_getitem_agrees_with_iter (p : Point.t) (n : Z) :
  Point.__getitem__ p (ObjInt n)
  = match (if (n <? 0)%Z then None
           else nth_error (Point.__iter__ p) (Z.to_nat n)) with
    | Some v => Return v
    | None => Raise IndexError
    end.
Proof.
  destruct n as [| q | q].
  - reflexivity.
  - destruct (Pos.eq_dec q 1) as [-> | Hq]; [reflexivity |].
    assert (H1 : (Z.pos q =? 1)%Z = false) by (apply Z.eqb_neq; congruence).
    unfold Point.__getitem__, isinstance_int, py_eq_int. cbn [negb].
    rewrite H1. cbn [Z.eqb Z.ltb Z.compare].
    destruct (Z.to_nat (Z.pos q)) as [| [| m]] eqn:E; try lia.
    cbn [Point.__iter__ nth_error]. destruct m; reflexivity.
  - reflexivity.
Qed.

(** Indexing a point by anything that is not an [int] raises [TypeError],
    and no index makes [__getitem__] return [None]. *)
Theorem Point_getitem_type_error (p : Point.t) (index : pyobj) :
  (isinstance_int index = false <->
   Point.__getitem__ p index = Raise TypeError)
  /\ Point.__getitem__ p index <> ReturnNone.
Proof.
  unfold Point.__getitem__.
  destruct (isinstance_int index); cbn [negb];
    destruct (py_eq_int index 0); destruct (py_eq_int index 1);
    repeat split; intros H; first [reflexivity | discriminate H].
Qed.
